(** * HW1: the restricted expression evaluator [safe_evaluate]

    A shallow embedding of [safe_evaluate] and of its inner function [_eval]
    (HW1/HW1.py), and the properties of the specification checked against it.

    - Python objects that an expression can denote are the type [value].
    - A raised exception is the [Raise] outcome of a computation; a returned
      object is [Ok].
    - [_eval] is a closure over the dictionary [variables]; it is embedded as a
      computation over that dictionary, so that what happens to the dictionary
      is part of what is proved.
    - What the function takes from the interpreter ([ast.parse], the functions
      of the [operator] module, the parsing of strings by [float]) is the class
      [Host]; every theorem holds for every host.
    - The tree is the one of Python 3.9 to 3.13 (every literal is an
      [ast.Constant], and the class [ast.Num] that the second branch of
      [_eval] names still exists); the node class [Num] of the older
      versions is kept, as in the code.
    - [_eval] is a structural recursion on the tree; the interpreter's
      recursion limit is not part of the model.
    - The endpoints of the application ([add], [sub], [mul], [div],
      [set_expression], [get_expression], [execute_expression]) are
      computations over [app.state], with the request bodies as pydantic
      validates them; requests are served one after the other. *)

From Stdlib Require Import ZArith Ascii String List.
From Stdlib Require Import Floats.SpecFloat.
From stdpp Require Import base countable gmap strings.

Set Warnings "-register-all".
Local Open Scope string_scope.

(* ===================================================================== *)
(** * Python objects and exceptions *)
(* ===================================================================== *)

(** A Python [float] is an IEEE 754 binary64 number. *)
Definition prec : Z := 53.
Definition emax : Z := 1024.

(** The objects an [ast.Constant] node can carry (and a binding can hold):
    [int] is unbounded, [bool] is its own class, [complex] is a pair of
    floats. *)
Inductive value : Type :=
  | VInt (z : Z)
  | VBool (b : bool)
  | VFloat (f : spec_float)
  | VComplex (re im : spec_float)
  | VStr (s : string)
  | VBytes (b : list Byte.byte)
  | VNone
  | VEllipsis.

(** The exception classes that can come out of [safe_evaluate]; each carries
    the text of its argument. *)
Inductive exception : Type :=
  | ValueError (msg : string)
  | SyntaxError (msg : string)
  | KeyError (key : string)
  | TypeError (msg : string)
  | ZeroDivisionError (msg : string)
  | OverflowError (msg : string)
  | RecursionError (msg : string)
  | MemoryError (msg : string).

Inductive outcome (A : Type) : Type :=
  | Ok (a : A)
  | Raise (e : exception).
Arguments Ok {A} a.
Arguments Raise {A} e.

(** [x == 0] for an object [x]: numbers compare by value across the numeric
    classes ([False == 0], [-0.0 == 0] and [0j == 0] hold); an object of
    another class is never equal to [0]. *)
Definition float_is_zero (f : spec_float) : bool :=
  match f with
  | S754_zero _ => true
  | _ => false
  end.

Definition eq_zero (x : value) : bool :=
  match x with
  | VInt z => Z.eqb z 0
  | VBool b => negb b
  | VFloat f => float_is_zero f
  | VComplex re im => float_is_zero re && float_is_zero im
  | VStr _ | VBytes _ | VNone | VEllipsis => false
  end.

(** [isinstance(x, float)]. *)
Definition is_float (x : value) : bool :=
  match x with
  | VFloat _ => true
  | _ => false
  end.

(* ===================================================================== *)
(** * The syntax tree of module [ast] *)
(* ===================================================================== *)

Module ast.

(** The classes of [BinOp.op]. *)
Inductive operator : Set :=
  | Add | Sub | Mult | MatMult | Div | Mod | Pow
  | LShift | RShift | BitOr | BitXor | BitAnd | FloorDiv.

(** The classes of [UnaryOp.op]. *)
Inductive unaryop : Set :=
  | Invert | Not | UAdd | USub.

Inductive boolop : Set :=
  | And | Or.

Inductive cmpop : Set :=
  | Eq | NotEq | Lt | LtE | Gt | GtE | Is | IsNot | In | NotIn.

(** Expression nodes.  [Num] is the class of number literals before
    Python 3.8; from 3.8 on every literal is a [Constant].  The classes
    that [_eval] has no branch for are listed with their sub-expressions;
    [Other] stands for the remaining ones (lambda, comprehensions,
    f-strings, ...), by class name. *)
Inductive expr : Type :=
  | Constant (value : value)
  | Num (n : value)
  | Name (id : string)
  | BinOp (left : expr) (op : operator) (right : expr)
  | UnaryOp (op : unaryop) (operand : expr)
  | BoolOp (op : boolop) (values : list expr)
  | Compare (left : expr) (ops : list cmpop) (comparators : list expr)
  | Call (func : expr) (args : list expr) (keywords : list (option string * expr))
  | IfExp (test body orelse : expr)
  | Attribute (value : expr) (attr : string)
  | Subscript (value : expr) (slice : expr)
  | List (elts : list expr)
  | Tuple (elts : list expr)
  | Dict (keys values : list expr)
  | Other (class_name : string) (fields : list expr).

End ast.

#[global] Instance operator_eq_dec : EqDecision ast.operator.
Proof. solve_decision. Defined.

#[global] Instance unaryop_eq_dec : EqDecision ast.unaryop.
Proof. solve_decision. Defined.

(** [type(node.op)]: the class object of an operator node, the key type of
    the dictionary [allowed_operators]. *)
Inductive op_class : Set :=
  | operator_class (op : ast.operator)
  | unaryop_class (op : ast.unaryop).

#[global] Instance op_class_eq_dec : EqDecision op_class.
Proof. solve_decision. Defined.

Definition op_class_code (c : op_class) : nat :=
  match c with
  | operator_class ast.Add => 0
  | operator_class ast.Sub => 1
  | operator_class ast.Mult => 2
  | operator_class ast.MatMult => 3
  | operator_class ast.Div => 4
  | operator_class ast.Mod => 5
  | operator_class ast.Pow => 6
  | operator_class ast.LShift => 7
  | operator_class ast.RShift => 8
  | operator_class ast.BitOr => 9
  | operator_class ast.BitXor => 10
  | operator_class ast.BitAnd => 11
  | operator_class ast.FloorDiv => 12
  | unaryop_class ast.Invert => 13
  | unaryop_class ast.Not => 14
  | unaryop_class ast.UAdd => 15
  | unaryop_class ast.USub => 16
  end.

Definition op_class_of_code (n : nat) : option op_class :=
  match n with
  | 0 => Some (operator_class ast.Add)
  | 1 => Some (operator_class ast.Sub)
  | 2 => Some (operator_class ast.Mult)
  | 3 => Some (operator_class ast.MatMult)
  | 4 => Some (operator_class ast.Div)
  | 5 => Some (operator_class ast.Mod)
  | 6 => Some (operator_class ast.Pow)
  | 7 => Some (operator_class ast.LShift)
  | 8 => Some (operator_class ast.RShift)
  | 9 => Some (operator_class ast.BitOr)
  | 10 => Some (operator_class ast.BitXor)
  | 11 => Some (operator_class ast.BitAnd)
  | 12 => Some (operator_class ast.FloorDiv)
  | 13 => Some (unaryop_class ast.Invert)
  | 14 => Some (unaryop_class ast.Not)
  | 15 => Some (unaryop_class ast.UAdd)
  | 16 => Some (unaryop_class ast.USub)
  | _ => None
  end.

#[global] Instance op_class_countable : Countable op_class.
Proof.
  refine (inj_countable op_class_code op_class_of_code _).
  intros [[]|[]]; reflexivity.
Defined.

(** [str(cls)] for an operator class, as the f-string of [_eval] prints it
    (Python 3.9 and later). *)
Definition class_name (c : op_class) : string :=
  match c with
  | operator_class ast.Add => "Add"
  | operator_class ast.Sub => "Sub"
  | operator_class ast.Mult => "Mult"
  | operator_class ast.MatMult => "MatMult"
  | operator_class ast.Div => "Div"
  | operator_class ast.Mod => "Mod"
  | operator_class ast.Pow => "Pow"
  | operator_class ast.LShift => "LShift"
  | operator_class ast.RShift => "RShift"
  | operator_class ast.BitOr => "BitOr"
  | operator_class ast.BitXor => "BitXor"
  | operator_class ast.BitAnd => "BitAnd"
  | operator_class ast.FloorDiv => "FloorDiv"
  | unaryop_class ast.Invert => "Invert"
  | unaryop_class ast.Not => "Not"
  | unaryop_class ast.UAdd => "UAdd"
  | unaryop_class ast.USub => "USub"
  end.

Definition str_class (c : op_class) : string :=
  "<class 'ast." +:+ class_name c +:+ "'>".

(* ===================================================================== *)
(** * Computations over the dictionary [variables] *)
(* ===================================================================== *)

(** A computation runs from the contents of a dictionary and ends with an
    outcome and the contents the dictionary then has.  A raised exception
    leaves the dictionary as it was when it was raised. *)
Definition M (A : Type) : Type :=
  gmap string value -> outcome A * gmap string value.

Definition ret {A} (a : A) : M A := fun d => (Ok a, d).

Definition raise {A} (e : exception) : M A := fun d => (Raise e, d).

Definition bind {A B} (m : M A) (k : A -> M B) : M B :=
  fun d =>
    match m d with
    | (Ok a, d') => k a d'
    | (Raise e, d') => (Raise e, d')
    end.

(** A call of a function that does not touch the dictionary. *)
Definition call {A} (r : outcome A) : M A := fun d => (r, d).

Declare Scope py_scope.
Delimit Scope py_scope with py.
Notation "x <- m ;; k" := (bind m (fun x => k))
  (at level 100, m at next level, right associativity) : py_scope.

(** [key in variables]. *)
Definition contains (key : string) : M bool :=
  fun d => (Ok (bool_decide (is_Some (d !! key))), d).

(** [variables[key]]. *)
Definition getitem (key : string) : M value :=
  fun d =>
    match d !! key with
    | Some v => (Ok v, d)
    | None => (Raise (KeyError ("'" +:+ key +:+ "'")), d)
    end.

(** The outcome of a computation, and the dictionary it leaves. *)
Definition result {A} (m : M A) (d : gmap string value) : outcome A := fst (m d).
Definition final {A} (m : M A) (d : gmap string value) : gmap string value := snd (m d).

(* ===================================================================== *)
(** * What the interpreter provides *)
(* ===================================================================== *)

(** The functions [safe_evaluate] takes from the standard library.
    [ast_parse expr] is [ast.parse(expr, mode='eval').body]: the root
    expression of the tree, or the exception the parser raises. *)
Class Host : Type := {
  operator_add : value -> value -> outcome value;
  operator_sub : value -> value -> outcome value;
  operator_mul : value -> value -> outcome value;
  operator_truediv : value -> value -> outcome value;
  operator_neg : value -> outcome value;
  operator_pos : value -> outcome value;
  float_of_str : string -> outcome spec_float;
  float_of_bytes : list Byte.byte -> outcome spec_float;
  ast_parse : string -> outcome ast.expr
}.

(** [float(int)]: the nearest binary64 number, ties to even; an [int] beyond
    the range of [float] raises [OverflowError]. *)
Definition float_of_int (z : Z) : outcome spec_float :=
  match binary_normalize prec emax z 0 false with
  | S754_infinity _ => Raise (OverflowError "int too large to convert to float")
  | f => Ok f
  end.

(** The built-in [float(x)]. *)
Definition float `{Host} (x : value) : outcome spec_float :=
  match x with
  | VFloat f => Ok f
  | VInt z => float_of_int z
  | VBool b => float_of_int (if b then 1 else 0)
  | VStr s => float_of_str s
  | VBytes b => float_of_bytes b
  | VComplex _ _ => Raise (TypeError "float() argument must be a string or a real number, not 'complex'")
  | VNone => Raise (TypeError "float() argument must be a string or a real number, not 'NoneType'")
  | VEllipsis => Raise (TypeError "float() argument must be a string or a real number, not 'ellipsis'")
  end.

(** A function object of the [operator] module, by the number of its
    arguments, and its call with one or with two arguments. *)
Inductive callable : Type :=
  | Function1 (f : value -> outcome value)
  | Function2 (f : value -> value -> outcome value).

Definition call1 (c : callable) (a : value) : outcome value :=
  match c with
  | Function1 f => f a
  | Function2 _ => Raise (TypeError "expected 2 arguments, got 1")
  end.

Definition call2 (c : callable) (a b : value) : outcome value :=
  match c with
  | Function2 f => f a b
  | Function1 _ => Raise (TypeError "expected 1 argument, got 2")
  end.

(* ===================================================================== *)
(** * [safe_evaluate] *)
(* ===================================================================== *)

(** The texts of the [ValueError]s of [safe_evaluate]. *)
Definition msg_unbound (id : string) : string :=
  "Не задано значение для переменной: '" +:+ id +:+ "'".
Definition msg_division_by_zero : string :=
  "Деление на ноль в выражении.".
Definition msg_unsupported_operator (op_type : op_class) : string :=
  "Неподдерживаемый оператор: " +:+ str_class op_type.
Definition msg_unsupported_syntax : string :=
  "Обнаружен неподдерживаемый синтаксис.".
Definition msg_syntax : string :=
  "Синтаксическая ошибка. Проверьте правильность выражения.".

(** The error kinds of the specification, as the exceptions that stand for
    them in the code: all are [ValueError]s, told apart by their text. *)
Definition UnboundVariable (name : string) : exception := ValueError (msg_unbound name).
Definition DivisionByZero : exception := ValueError msg_division_by_zero.
Definition UnsupportedOperator (op_type : op_class) : exception :=
  ValueError (msg_unsupported_operator op_type).
Definition UnsupportedSyntax : exception := ValueError msg_unsupported_syntax.
Definition SyntaxFailure : exception := ValueError msg_syntax.

(** A classified failure is a [ValueError]: the caller [execute_expression]
    reports a [ValueError] as the request's error and any other exception as
    an internal error. *)
Definition classified (e : exception) : bool :=
  match e with
  | ValueError _ => true
  | _ => false
  end.

Section Evaluator.
Context `{Host}.
Local Open Scope py_scope.

(** The dictionary [allowed_operators]. *)
Definition allowed_operators : gmap op_class callable :=
  <[operator_class ast.Add := Function2 operator_add]>
  (<[operator_class ast.Sub := Function2 operator_sub]>
  (<[operator_class ast.Mult := Function2 operator_mul]>
  (<[operator_class ast.Div := Function2 operator_truediv]>
  (<[unaryop_class ast.USub := Function1 operator_neg]>
  (<[unaryop_class ast.UAdd := Function1 operator_pos]> ∅))))).

(** [allowed_operators[op_type]]. *)
Definition allowed_operators_getitem (op_type : op_class) : outcome callable :=
  match allowed_operators !! op_type with
  | Some f => Ok f
  | None => Raise (KeyError (str_class op_type))
  end.

(** The inner function [_eval]. *)
Fixpoint _eval (node : ast.expr) : M value :=
  match node with
  | ast.Constant value => ret value
  | ast.Num n => ret n
  | ast.Name id =>
      present <- contains id ;;
      if (present : bool) then
        v <- getitem id ;;
        f <- call (float v) ;;
        ret (VFloat f)
      else raise (ValueError (msg_unbound id))
  | ast.BinOp l op r =>
      left <- _eval l ;;
      right <- _eval r ;;
      let op_type := operator_class op in
      if bool_decide (op_type = operator_class ast.Div) && eq_zero right then
        raise (ValueError msg_division_by_zero)
      else if negb (bool_decide (is_Some (allowed_operators !! op_type))) then
        raise (ValueError (msg_unsupported_operator op_type))
      else
        f <- call (allowed_operators_getitem op_type) ;;
        call (call2 f left right)
  | ast.UnaryOp op operand =>
      operand <- _eval operand ;;
      f <- call (allowed_operators_getitem (unaryop_class op)) ;;
      call (call1 f operand)
  | _ => raise (ValueError msg_unsupported_syntax)
  end.

(** [except SyntaxError: raise ValueError(...)] around a computation. *)
Definition except_SyntaxError {A} (body : M A) : M A :=
  fun d =>
    match body d with
    | (Raise (SyntaxError _), d') => (Raise (ValueError msg_syntax), d')
    | r => r
    end.

(** [safe_evaluate(expr, variables)].  [variables] is [None] or the
    caller's dictionary; the result comes with the contents of the
    dictionary that [variables] names when the function ends (the caller's
    one, or the fresh [{}] that stands in for [None]). *)
Definition safe_evaluate (expr : string) (variables : option (gmap string value))
  : outcome value * gmap string value :=
  let variables :=
    match variables with
    | None => ∅
    | Some d => d
    end in
  except_SyntaxError
    (body <- call (ast_parse expr) ;;
     _eval body) variables.

End Evaluator.

(* ===================================================================== *)
(** * A host to run the definitions on *)
(* ===================================================================== *)

(** The [operator] module on the objects of [value], as CPython computes
    them: [int] arithmetic is exact, a [bool] counts as the [int] 0 or 1,
    [float] arithmetic is binary64 with round to nearest even, an [int] that
    meets a [float] is converted first, [str] and [bytes] concatenate and
    repeat.  Only the theorems' examples depend on it. *)
Module operator.

Definition type_name (x : value) : string :=
  match x with
  | VInt _ => "int"
  | VBool _ => "bool"
  | VFloat _ => "float"
  | VComplex _ _ => "complex"
  | VStr _ => "str"
  | VBytes _ => "bytes"
  | VNone => "NoneType"
  | VEllipsis => "ellipsis"
  end.

Definition unsupported {A} (sym : string) (a b : value) : outcome A :=
  Raise (TypeError ("unsupported operand type(s) for " +:+ sym +:+ ": '"
                    +:+ type_name a +:+ "' and '" +:+ type_name b +:+ "'")).

Definition bad_operand {A} (sym : string) (a : value) : outcome A :=
  Raise (TypeError ("bad operand type for unary " +:+ sym +:+ ": '"
                    +:+ type_name a +:+ "'")).

(** The three numeric shapes an operand can be brought to. *)
Inductive number : Type :=
  | NInt (z : Z)
  | NFloat (f : spec_float)
  | NComplex (re im : spec_float).

Definition as_number (x : value) : option number :=
  match x with
  | VInt z => Some (NInt z)
  | VBool b => Some (NInt (if b then 1 else 0))
  | VFloat f => Some (NFloat f)
  | VComplex re im => Some (NComplex re im)
  | _ => None
  end.

Definition pzero : spec_float := S754_zero false.

(** The binary operators on numbers: [fi] on two [int]s, [ff] on two
    [float]s, [fc] on two [complex]es, after the usual conversions. *)
Definition numeric
    (fi : Z -> Z -> outcome value)
    (ff : spec_float -> spec_float -> outcome value)
    (fc : spec_float * spec_float -> spec_float * spec_float -> outcome value)
    (a b : number) : outcome value :=
  match a, b with
  | NInt x, NInt y => fi x y
  | NInt x, NFloat g =>
      match float_of_int x with Ok f => ff f g | Raise e => Raise e end
  | NFloat f, NInt y =>
      match float_of_int y with Ok g => ff f g | Raise e => Raise e end
  | NFloat f, NFloat g => ff f g
  | NComplex r i, NComplex r' i' => fc (r, i) (r', i')
  | NComplex r i, NFloat g => fc (r, i) (g, pzero)
  | NFloat f, NComplex r' i' => fc (f, pzero) (r', i')
  | NComplex r i, NInt y =>
      match float_of_int y with Ok g => fc (r, i) (g, pzero) | Raise e => Raise e end
  | NInt x, NComplex r' i' =>
      match float_of_int x with Ok f => fc (f, pzero) (r', i') | Raise e => Raise e end
  end.

Definition fadd := SFadd prec emax.
Definition fsub := SFsub prec emax.
Definition fmul := SFmul prec emax.
Definition fdiv := SFdiv prec emax.

Fixpoint str_repeat (s : string) (n : nat) : string :=
  match n with
  | O => ""
  | S n => s +:+ str_repeat s n
  end.

Fixpoint bytes_repeat (b : list Byte.byte) (n : nat) : list Byte.byte :=
  match n with
  | O => []
  | S n => b ++ bytes_repeat b n
  end.

Definition add (a b : value) : outcome value :=
  match a, b with
  | VStr s, VStr t => Ok (VStr (s +:+ t))
  | VBytes s, VBytes t => Ok (VBytes (s ++ t))
  | _, _ =>
      match as_number a, as_number b with
      | Some x, Some y =>
          numeric (fun x y => Ok (VInt (x + y)))
                  (fun f g => Ok (VFloat (fadd f g)))
                  (fun '(r, i) '(r', i') => Ok (VComplex (fadd r r') (fadd i i')))
                  x y
      | _, _ => unsupported "+" a b
      end
  end.

Definition sub (a b : value) : outcome value :=
  match as_number a, as_number b with
  | Some x, Some y =>
      numeric (fun x y => Ok (VInt (x - y)))
              (fun f g => Ok (VFloat (fsub f g)))
              (fun '(r, i) '(r', i') => Ok (VComplex (fsub r r') (fsub i i')))
              x y
  | _, _ => unsupported "-" a b
  end.

Definition mul (a b : value) : outcome value :=
  match a, b with
  | VStr s, VInt n | VInt n, VStr s => Ok (VStr (str_repeat s (Z.to_nat n)))
  | VStr s, VBool n | VBool n, VStr s => Ok (VStr (if n then s else ""))
  | VBytes s, VInt n | VInt n, VBytes s => Ok (VBytes (bytes_repeat s (Z.to_nat n)))
  | VBytes s, VBool n | VBool n, VBytes s => Ok (VBytes (if n then s else []))
  | _, _ =>
      match as_number a, as_number b with
      | Some x, Some y =>
          numeric (fun x y => Ok (VInt (x * y)))
                  (fun f g => Ok (VFloat (fmul f g)))
                  (fun '(r, i) '(r', i') =>
                     Ok (VComplex (fsub (fmul r r') (fmul i i'))
                                  (fadd (fmul r i') (fmul i r'))))
                  x y
      | _, _ => unsupported "*" a b
      end
  end.

(** [int / int]: the quotient of the two integers, rounded once. *)
Definition int_truediv (x y : Z) : outcome value :=
  if Z.eqb y 0 then Raise (ZeroDivisionError "division by zero")
  else
    let negative := xorb (Z.ltb x 0) (Z.ltb y 0) in
    match Z.abs x, Z.abs y with
    | Zpos mx, Zpos my =>
        let '(mz, ez, lz) := SFdiv_core_binary prec emax (Zpos mx) 0 (Zpos my) 0 in
        match binary_round_aux prec emax negative mz ez lz with
        | S754_infinity _ =>
            Raise (OverflowError "integer division result too large for a float")
        | f => Ok (VFloat f)
        end
    | _, _ => Ok (VFloat (S754_zero negative))
    end.

Definition float_truediv (f g : spec_float) : outcome value :=
  if float_is_zero g then Raise (ZeroDivisionError "float division by zero")
  else Ok (VFloat (fdiv f g)).

(** [complex / complex], by the ratio of the divisor's larger component. *)
Definition complex_truediv (a b : spec_float * spec_float) : outcome value :=
  let '(ar, ai) := a in
  let '(br, bi) := b in
  let abs_breal := SFabs br in
  let abs_bimag := SFabs bi in
  if SFleb abs_bimag abs_breal then
    if float_is_zero abs_breal then
      Raise (ZeroDivisionError "complex division by zero")
    else
      let ratio := fdiv bi br in
      let denom := fadd br (fmul bi ratio) in
      Ok (VComplex (fdiv (fadd ar (fmul ai ratio)) denom)
                   (fdiv (fsub ai (fmul ar ratio)) denom))
  else if SFleb abs_breal abs_bimag then
    let ratio := fdiv br bi in
    let denom := fadd (fmul br ratio) bi in
    Ok (VComplex (fdiv (fadd (fmul ar ratio) ai) denom)
                 (fdiv (fsub (fmul ai ratio) ar) denom))
  else Ok (VComplex S754_nan S754_nan).

Definition truediv (a b : value) : outcome value :=
  match as_number a, as_number b with
  | Some x, Some y => numeric int_truediv float_truediv complex_truediv x y
  | _, _ => unsupported "/" a b
  end.

Definition neg (a : value) : outcome value :=
  match as_number a with
  | Some (NInt z) => Ok (VInt (- z))
  | Some (NFloat f) => Ok (VFloat (SFopp f))
  | Some (NComplex r i) => Ok (VComplex (SFopp r) (SFopp i))
  | None => bad_operand "-" a
  end.

Definition pos (a : value) : outcome value :=
  match as_number a with
  | Some (NInt z) => Ok (VInt z)
  | Some (NFloat f) => Ok (VFloat f)
  | Some (NComplex r i) => Ok (VComplex r i)
  | None => bad_operand "+" a
  end.

End operator.

(** [float(s)] for a string of the form [[+-]digits[.digits]], the decimal
    number rounded once.  The other spellings [float] reads (exponents,
    [inf], [nan], surrounding blanks, underscores) are not read here: they
    are answered like a string that is not a number. *)
Module decimal.

Definition digit (c : Ascii.ascii) : option Z :=
  let n := Z.of_N (Ascii.N_of_ascii c) in
  if (48 <=? n)%Z && (n <=? 57)%Z then Some (n - 48)%Z else None.

(** The digits at the head of [s]: their value on top of [acc], how many
    there were, and the rest of the string. *)
Fixpoint digits (s : string) (acc : Z) (count : nat) : Z * nat * string :=
  match s with
  | String c rest =>
      match digit c with
      | Some n => digits rest (10 * acc + n)%Z (S count)
      | None => (acc, count, s)
      end
  | EmptyString => (acc, count, s)
  end.

Definition unsigned (s : string) : option (Z * nat) :=
  let '(whole, n, rest) := digits s 0%Z 0 in
  match rest with
  | EmptyString => if Nat.eqb n 0 then None else Some (whole, 0)
  | String "."%char rest =>
      let '(all, k, rest') := digits rest whole 0 in
      match rest' with
      | EmptyString => if Nat.eqb (n + k) 0 then None else Some (all, k)
      | _ => None
      end
  | _ => None
  end.

Definition round (negative : bool) (m : Z) (k : nat) : spec_float :=
  match m with
  | Zpos _ =>
      let '(mz, ez, lz) := SFdiv_core_binary prec emax m 0 (10 ^ Z.of_nat k)%Z 0 in
      binary_round_aux prec emax negative mz ez lz
  | _ => S754_zero negative
  end.

Definition parse (s : string) : outcome spec_float :=
  let '(negative, body) :=
    match s with
    | String "-"%char rest => (true, rest)
    | String "+"%char rest => (false, rest)
    | _ => (false, s)
    end in
  match unsigned body with
  | Some (m, k) => Ok (round negative m k)
  | None => Raise (ValueError ("could not convert string to float: '" +:+ s +:+ "'"))
  end.

End decimal.

(** The float a decimal literal of the examples denotes. *)
Definition float_literal (m : Z) (k : nat) : spec_float := decimal.round false m k.

(** Source texts with what [ast.parse(text, mode='eval')] answers on each:
    the root expression, or [SyntaxError]. *)
Definition sources : list (string * outcome ast.expr) :=
  [ ("", Raise (SyntaxError "invalid syntax"));
    ("2+", Raise (SyntaxError "invalid syntax"));
    ("(1", Raise (SyntaxError "'(' was never closed"));
    ("2 $ 3", Raise (SyntaxError "invalid syntax"));
    ("x = 1", Raise (SyntaxError "invalid syntax"));
    ("1; 2", Raise (SyntaxError "invalid syntax"));
    ("2", Ok (ast.Constant (VInt 2)));
    ("1.5", Ok (ast.Constant (VFloat (float_literal 15 1))));
    ("x", Ok (ast.Name "x"));
    ("X", Ok (ast.Name "X"));
    ("a+b", Ok (ast.BinOp (ast.Name "a") ast.Add (ast.Name "b")));
    ("a/b", Ok (ast.BinOp (ast.Name "a") ast.Div (ast.Name "b")));
    ("x/y", Ok (ast.BinOp (ast.Name "x") ast.Div (ast.Name "y")));
    ("1/0", Ok (ast.BinOp (ast.Constant (VInt 1)) ast.Div (ast.Constant (VInt 0))));
    ("7/2", Ok (ast.BinOp (ast.Constant (VInt 7)) ast.Div (ast.Constant (VInt 2))));
    ("-(-5)", Ok (ast.UnaryOp ast.USub (ast.UnaryOp ast.USub (ast.Constant (VInt 5)))));
    ("2*(3+4)", Ok (ast.BinOp (ast.Constant (VInt 2)) ast.Mult
                      (ast.BinOp (ast.Constant (VInt 3)) ast.Add (ast.Constant (VInt 4)))));
    ("2**3", Ok (ast.BinOp (ast.Constant (VInt 2)) ast.Pow (ast.Constant (VInt 3))));
    ("~1", Ok (ast.UnaryOp ast.Invert (ast.Constant (VInt 1))));
    ("not 1", Ok (ast.UnaryOp ast.Not (ast.Constant (VInt 1))));
    ("'abc'", Ok (ast.Constant (VStr "abc")));
    ("'a'-1", Ok (ast.BinOp (ast.Constant (VStr "a")) ast.Sub (ast.Constant (VInt 1))));
    ("None", Ok (ast.Constant VNone));
    ("True", Ok (ast.Constant (VBool true)));
    ("__import__('os')",
     Ok (ast.Call (ast.Name "__import__") [ast.Constant (VStr "os")] []));
    ("f(~1)", Ok (ast.Call (ast.Name "f") [ast.UnaryOp ast.Invert (ast.Constant (VInt 1))] []));
    ("1 < 2", Ok (ast.Compare (ast.Constant (VInt 1)) [ast.Lt] [ast.Constant (VInt 2)])) ].

Fixpoint lookup_source (text : string) (table : list (string * outcome ast.expr))
  : outcome ast.expr :=
  match table with
  | (t, r) :: rest => if String.eqb t text then r else lookup_source text rest
  | [] => Raise (SyntaxError "invalid syntax")
  end.

(** The host of the examples.  Its parser knows the texts of [sources]; a
    text outside the table is answered as one that is not an expression. *)
Definition cpython : Host := {|
  operator_add := operator.add;
  operator_sub := operator.sub;
  operator_mul := operator.mul;
  operator_truediv := operator.truediv;
  operator_neg := operator.neg;
  operator_pos := operator.pos;
  float_of_str := decimal.parse;
  float_of_bytes := fun b => decimal.parse (string_of_list_byte b);
  ast_parse := fun text => lookup_source text sources
|}.

Definition run (text : string) (variables : list (string * value)) : outcome value :=
  fst (@safe_evaluate cpython text (Some (list_to_map variables))).

(* ===================================================================== *)
(** * The endpoints of the application *)
(* ===================================================================== *)

(** The request bodies, as pydantic hands them to the endpoints: the
    operands and the values of [variables] are floats. *)
Module BasicMath.
Record t : Type := { a : spec_float; b : spec_float }.
End BasicMath.

Module ExpressionSet.
Record t : Type := { expression : string }.
End ExpressionSet.

Module ExecuteRequest.
Record t : Type := { variables : option (gmap string spec_float) }.
End ExecuteRequest.

(** The dictionary an endpoint returns: its keys in order, each with a
    string, an object or a dictionary of bindings. *)
Inductive field : Type :=
  | FStr (s : string)
  | FValue (v : value)
  | FDict (d : gmap string value).

Definition response : Type := list (string * field).

(** What an endpoint raises: the [HTTPException] it builds itself, or an
    exception that escapes it. *)
Inductive raised : Type :=
  | HTTPException (status_code : Z) (detail : string)
  | Uncaught (e : exception).

Inductive reply (A : Type) : Type :=
  | Return (r : A)
  | Fail (x : raised).
Arguments Return {A} r.
Arguments Fail {A} x.

(** [app.state]: the one attribute the endpoints use. *)
Record app_state : Type := { current_expression : string }.

(** [app.state.current_expression = ""] at import. *)
Definition initial_state : app_state := {| current_expression := "" |}.

(** An endpoint runs from the state of the application and ends with a
    reply and the state it leaves. *)
Definition App (A : Type) : Type := app_state -> reply A * app_state.

(** [str(e)]. *)
Definition str_exception (e : exception) : string :=
  match e with
  | ValueError msg | SyntaxError msg | KeyError msg | TypeError msg
  | ZeroDivisionError msg | OverflowError msg | RecursionError msg
  | MemoryError msg => msg
  end.

(** [float / float]. *)
Definition float_div (x y : spec_float) : outcome value := operator.float_truediv x y.

Definition msg_div_endpoint : string := "Ошибка: Деление на ноль.".
Definition msg_saved : string := "Выражение успешно сохранено.".
Definition msg_not_set : string :=
  "Выражение не задано. Сначала используйте POST /expression.".
Definition msg_internal : string := "Внутренняя ошибка вычисления: ".

Definition add (data : BasicMath.t) : App response :=
  fun st =>
    (Return [("result", FValue (VFloat (operator.fadd (BasicMath.a data) (BasicMath.b data))))], st).

Definition sub (data : BasicMath.t) : App response :=
  fun st =>
    (Return [("result", FValue (VFloat (operator.fsub (BasicMath.a data) (BasicMath.b data))))], st).

Definition mul (data : BasicMath.t) : App response :=
  fun st =>
    (Return [("result", FValue (VFloat (operator.fmul (BasicMath.a data) (BasicMath.b data))))], st).

Definition div (data : BasicMath.t) : App response :=
  fun st =>
    if float_is_zero (BasicMath.b data) then
      (Fail (HTTPException 400 msg_div_endpoint), st)
    else
      match float_div (BasicMath.a data) (BasicMath.b data) with
      | Ok q => (Return [("result", FValue q)], st)
      | Raise e => (Fail (Uncaught e), st)
      end.

Definition set_expression (data : ExpressionSet.t) : App response :=
  fun st =>
    let st' := {| current_expression := ExpressionSet.expression data |} in
    (Return [("message", FStr msg_saved);
             ("current_expression", FStr (current_expression st'))], st').

Definition get_expression : App response :=
  fun st => (Return [("current_expression", FStr (current_expression st))], st).

(** [d or {}] for the dictionary [data.variables], whose contents are [d']
    by the time the expression is evaluated. *)
Definition or_empty (variables : option (gmap string spec_float)) (d' : gmap string value)
  : gmap string value :=
  match variables with
  | None => ∅
  | Some _ => d'
  end.

(** The dictionary of floats [data.variables], as the objects it holds. *)
Definition objects (variables : option (gmap string spec_float))
  : option (gmap string value) :=
  match variables with
  | None => None
  | Some d => Some (VFloat <$> d)
  end.

Section Endpoints.
Context `{Host}.

Definition execute_expression (data : ExecuteRequest.t) : App response :=
  fun st =>
    let expr := current_expression st in
    if String.eqb expr "" then
      (Fail (HTTPException 400 msg_not_set), st)
    else
      let variables := ExecuteRequest.variables data in
      match safe_evaluate expr (objects variables) with
      | (Ok result, d') =>
          (Return [("expression", FStr expr);
                   ("variables_used", FDict (or_empty variables d'));
                   ("result", FValue result)], st)
      | (Raise (ValueError msg), _) => (Fail (HTTPException 400 msg), st)
      | (Raise e, _) => (Fail (HTTPException 500 (msg_internal +:+ str_exception e)), st)
      end.

(** The routes of the application. *)
Inductive request : Type :=
  | POST_add (data : BasicMath.t)
  | POST_sub (data : BasicMath.t)
  | POST_mul (data : BasicMath.t)
  | POST_div (data : BasicMath.t)
  | POST_expression (data : ExpressionSet.t)
  | GET_expression
  | POST_execute (data : ExecuteRequest.t).

Definition route (req : request) : App response :=
  match req with
  | POST_add data => add data
  | POST_sub data => sub data
  | POST_mul data => mul data
  | POST_div data => div data
  | POST_expression data => set_expression data
  | GET_expression => get_expression
  | POST_execute data => execute_expression data
  end.

(** Requests served one after the other: the replies, in order, and the
    state after the last one. *)
Fixpoint serve (reqs : list request) (st : app_state) : list (reply response) * app_state :=
  match reqs with
  | [] => ([], st)
  | req :: rest =>
      let '(r, st') := route req st in
      let '(rs, st'') := serve rest st' in
      (r :: rs, st'')
  end.

End Endpoints.

(** The expression the requests leave in the slot that held [current]:
    that of the last [POST /expression] among them. *)
Fixpoint last_expression (reqs : list request) (current : string) : string :=
  match reqs with
  | [] => current
  | POST_expression data :: rest => last_expression rest (ExpressionSet.expression data)
  | _ :: rest => last_expression rest current
  end.

(** A host whose division answers an infinity on a divisor equal to zero,
    where CPython raises. *)
Definition cpython_inf : Host := {|
  operator_add := operator.add;
  operator_sub := operator.sub;
  operator_mul := operator.mul;
  operator_truediv := fun x y =>
    if eq_zero y then Ok (VFloat (S754_infinity false)) else operator.truediv x y;
  operator_neg := operator.neg;
  operator_pos := operator.pos;
  float_of_str := decimal.parse;
  float_of_bytes := fun b => decimal.parse (string_of_list_byte b);
  ast_parse := fun text => lookup_source text sources
|}.

(** A host whose parser fails for lack of memory. *)
Definition cpython_exhausted : Host := {|
  operator_add := operator.add;
  operator_sub := operator.sub;
  operator_mul := operator.mul;
  operator_truediv := operator.truediv;
  operator_neg := operator.neg;
  operator_pos := operator.pos;
  float_of_str := decimal.parse;
  float_of_bytes := fun b => decimal.parse (string_of_list_byte b);
  ast_parse := fun _ => Raise (MemoryError "")
|}.

(* ===================================================================== *)
(** * Properties of [_eval] and [safe_evaluate] *)
(* ===================================================================== *)

(** A computation that leaves the dictionary as it found it. *)
Definition preserving {A} (m : M A) : Prop :=
  forall d, final m d = d.

(** The node classes [_eval] has a branch for. *)
Definition whitelisted (node : ast.expr) : bool :=
  match node with
  | ast.Constant _ | ast.Num _ | ast.Name _ | ast.BinOp _ _ _ | ast.UnaryOp _ _ => true
  | _ => false
  end.

(** The operator classes that are keys of [allowed_operators]. *)
Definition allowed (c : op_class) : bool :=
  match c with
  | operator_class (ast.Add | ast.Sub | ast.Mult | ast.Div) => true
  | unaryop_class (ast.UAdd | ast.USub) => true
  | _ => false
  end.





(** The names [_eval] looks up in a tree: those of the [Name] nodes it can
    reach through [BinOp] and [UnaryOp] nodes. *)
Fixpoint names (node : ast.expr) : gset string :=
  match node with
  | ast.Name id => {[ id ]}
  | ast.BinOp l _ r => names l ∪ names r
  | ast.UnaryOp _ operand => names operand
  | _ => ∅
  end.

(** A tree made of literals, names, and allowed operators only. *)
Fixpoint supported (node : ast.expr) : bool :=
  match node with
  | ast.Constant _ | ast.Num _ | ast.Name _ => true
  | ast.BinOp l op r => allowed (operator_class op) && supported l && supported r
  | ast.UnaryOp op operand => allowed (unaryop_class op) && supported operand
  | _ => false
  end.

(** What [_eval] does on a [BinOp] once both operands have a value. *)
Definition apply_binop `{Host} (op : ast.operator) (left right : value) : outcome value :=
  if bool_decide (operator_class op = operator_class ast.Div) && eq_zero right then
    Raise DivisionByZero
  else if negb (allowed (operator_class op)) then
    Raise (UnsupportedOperator (operator_class op))
  else
    match allowed_operators_getitem (operator_class op) with
    | Ok f => call2 f left right
    | Raise e => Raise e
    end.

(** Two hosts that differ at most in what their division operator answers
    on a divisor equal to zero. *)
Definition agree_off_zero (H1 H2 : Host) : Prop :=
  @operator_add H1 = @operator_add H2
  /\ @operator_sub H1 = @operator_sub H2
  /\ @operator_mul H1 = @operator_mul H2
  /\ @operator_neg H1 = @operator_neg H2
  /\ @operator_pos H1 = @operator_pos H2
  /\ @float_of_str H1 = @float_of_str H2
  /\ @float_of_bytes H1 = @float_of_bytes H2
  /\ (forall a b, eq_zero b = false -> @operator_truediv H1 a b = @operator_truediv H2 a b).

Section Properties.
Context `{Host}.

Lemma allowed_operators_lookup (c : op_class) :
  allowed_operators !! c =
    match c with
    | operator_class ast.Add => Some (Function2 operator_add)
    | operator_class ast.Sub => Some (Function2 operator_sub)
    | operator_class ast.Mult => Some (Function2 operator_mul)
    | operator_class ast.Div => Some (Function2 operator_truediv)
    | unaryop_class ast.USub => Some (Function1 operator_neg)
    | unaryop_class ast.UAdd => Some (Function1 operator_pos)
    | _ => None
    end.
Proof. destruct c as [[]|[]]; reflexivity. Qed.

Lemma allowed_operators_is_Some (c : op_class) :
  bool_decide (is_Some (allowed_operators !! c)) = allowed c.
Proof.
  rewrite allowed_operators_lookup.
  destruct c as [[]|[]]; reflexivity.
Qed.

Lemma preserving_ret {A} (a : A) : preserving (ret a).
Proof. intros d. reflexivity. Qed.

Lemma preserving_raise {A} (e : exception) : preserving (@raise A e).
Proof. intros d. reflexivity. Qed.

Lemma preserving_call {A} (r : outcome A) : preserving (call r).
Proof. intros d. reflexivity. Qed.

Lemma preserving_contains (key : string) : preserving (contains key).
Proof. intros d. reflexivity. Qed.

Lemma preserving_getitem (key : string) : preserving (getitem key).
Proof. intros d. unfold final, getitem. destruct (d !! key); reflexivity. Qed.

Lemma preserving_bind {A B} (m : M A) (k : A -> M B) :
  preserving m -> (forall a, preserving (k a)) -> preserving (bind m k).
Proof.
  intros Hm Hk d. unfold final, bind.
  specialize (Hm d). unfold final in Hm.
  destruct (m d) as [[a|e] d']; simpl in *; subst d'.
  - apply Hk.
  - reflexivity.
Qed.

Lemma preserving_if {A} (b : bool) (m1 m2 : M A) :
  preserving m1 -> preserving m2 -> preserving (if b then m1 else m2).
Proof. destruct b; auto. Qed.

Create HintDb preserving.
#[local] Hint Resolve preserving_ret preserving_raise preserving_call
  preserving_contains preserving_getitem preserving_if : preserving.

(** [_eval] only reads [variables]. *)
Lemma _eval_preserving (node : ast.expr) : preserving (_eval node).
Proof.
  induction node; simpl; auto with preserving.
  - apply preserving_bind; auto with preserving.
    intros present. apply preserving_if; auto with preserving.
    apply preserving_bind; auto with preserving.
    intros v. apply preserving_bind; auto with preserving.
  - apply preserving_bind; [assumption|]. intros left.
    apply preserving_bind; [assumption|]. intros right.
    repeat apply preserving_if; auto with preserving.
    apply preserving_bind; auto with preserving.
  - apply preserving_bind; [assumption|]. intros operand.
    apply preserving_bind; auto with preserving.
Qed.

Lemma run_eq {A} (m : M A) (d : gmap string value) :
  preserving m -> m d = (result m d, d).
Proof.
  intros Hm. specialize (Hm d). unfold final, result in *.
  destruct (m d) as [r d']. simpl in *. congruence.
Qed.

Lemma _eval_run (node : ast.expr) (d : gmap string value) :
  _eval node d = (result (_eval node) d, d).
Proof. apply run_eq, _eval_preserving. Qed.

Lemma _eval_BinOp (l r : ast.expr) (op : ast.operator) (d : gmap string value) :
  _eval (ast.BinOp l op r) d =
    (match result (_eval l) d with
     | Raise e => Raise e
     | Ok lv =>
         match result (_eval r) d with
         | Raise e => Raise e
         | Ok rv => apply_binop op lv rv
         end
     end, d).
Proof.
  simpl. unfold bind at 1. rewrite (_eval_run l d).
  destruct (result (_eval l) d) as [lv|e]; [|reflexivity].
  unfold bind at 1. rewrite (_eval_run r d).
  destruct (result (_eval r) d) as [rv|e]; [|reflexivity].
  unfold apply_binop. rewrite allowed_operators_is_Some.
  destruct (bool_decide _ && eq_zero rv); [reflexivity|].
  destruct (negb _); [reflexivity|].
  unfold bind, call. destruct (allowed_operators_getitem _); reflexivity.
Qed.

Lemma _eval_UnaryOp (op : ast.unaryop) (operand : ast.expr) (d : gmap string value) :
  _eval (ast.UnaryOp op operand) d =
    (match result (_eval operand) d with
     | Raise e => Raise e
     | Ok v =>
         match allowed_operators_getitem (unaryop_class op) with
         | Ok f => call1 f v
         | Raise e => Raise e
         end
     end, d).
Proof.
  simpl. unfold bind at 1. rewrite (_eval_run operand d).
  destruct (result (_eval operand) d) as [v|e]; [|reflexivity].
  unfold bind, call. destruct (allowed_operators_getitem _); reflexivity.
Qed.

(** X11.  The [BinOp] branch guards its dictionary access: an operator that is
    not a key of [allowed_operators] raises the [ValueError] of the
    unsupported operator once both operands have a value. *)
Lemma binary_operator_outside_whitelist
    (l r : ast.expr) (op : ast.operator) (d : gmap string value) (lv rv : value) :
  allowed (operator_class op) = false ->
  result (_eval l) d = Ok lv ->
  result (_eval r) d = Ok rv ->
  _eval (ast.BinOp l op r) d = (Raise (UnsupportedOperator (operator_class op)), d).
Proof.
  intros Hop Hl Hr. rewrite _eval_BinOp, Hl, Hr. unfold apply_binop.
  rewrite Hop. destruct op; simpl in Hop; try discriminate; reflexivity.
Qed.

(** X12.  A failure of the right operand, after the left one has a value, is the
    failure of the [BinOp]. *)
Lemma right_failure_propagates
    (l r : ast.expr) (op : ast.operator) (d : gmap string value) (lv : value) (e : exception) :
  result (_eval l) d = Ok lv ->
  result (_eval r) d = Raise e ->
  _eval (ast.BinOp l op r) d = (Raise e, d).
Proof. intros Hl Hr. rewrite _eval_BinOp, Hl, Hr. reflexivity. Qed.

(** A division whose right operand evaluates to zero never has a value,
    whatever the left operand does. *)
Lemma division_by_zero_never_value
    (l r : ast.expr) (d : gmap string value) (rv : value) :
  result (_eval r) d = Ok rv ->
  eq_zero rv = true ->
  forall v, result (_eval (ast.BinOp l ast.Div r)) d <> Ok v.
Proof.
  intros Hr Hz v. unfold result at 1. rewrite _eval_BinOp, Hr. simpl.
  destruct (result (_eval l) d); [|discriminate].
  unfold apply_binop. rewrite Hz. discriminate.
Qed.

End Properties.

(** X10.  The division operator is never called on a zero divisor: [_eval] cannot
    tell such hosts apart. *)
Lemma truediv_zero_divisor_unobserved (H1 H2 : Host) :
  agree_off_zero H1 H2 ->
  forall node d, @_eval H1 node d = @_eval H2 node d.
Proof.
  intros (Hadd & Hsub & Hmul & Hneg & Hpos & Hstr & Hbytes & Hdiv).
  induction node; intros d; try reflexivity.
  - (* Name *)
    simpl. unfold bind, contains, getitem, call.
    destruct (d !! id) as [v|] eqn:Hv; simpl; [|reflexivity].
    rewrite Hv.
    assert (Hfloat : @float H1 v = @float H2 v).
    { destruct v; simpl; try reflexivity; [rewrite Hstr | rewrite Hbytes]; reflexivity. }
    rewrite Hfloat. reflexivity.
  - (* BinOp *)
    rewrite !_eval_BinOp. unfold result. rewrite IHnode1, IHnode2.
    destruct (fst (@_eval H2 node1 d)) as [lv|]; [|reflexivity].
    destruct (fst (@_eval H2 node2 d)) as [rv|]; [|reflexivity].
    unfold apply_binop, allowed_operators_getitem.
    rewrite !allowed_operators_lookup.
    destruct op; simpl; try reflexivity.
    + rewrite Hadd. reflexivity.
    + rewrite Hsub. reflexivity.
    + rewrite Hmul. reflexivity.
    + destruct (eq_zero rv) eqn:Hz.
      * reflexivity.
      * simpl. rewrite (Hdiv lv rv Hz). reflexivity.
  - (* UnaryOp *)
    rewrite !_eval_UnaryOp. unfold result. rewrite IHnode.
    destruct (fst (@_eval H2 node d)) as [v|]; [|reflexivity].
    unfold allowed_operators_getitem. rewrite !allowed_operators_lookup.
    destruct op; simpl; try reflexivity.
    + rewrite Hpos. reflexivity.
    + rewrite Hneg. reflexivity.
Qed.

Section Claims.
Context `{Host}.

(** C1.  A node of a class other than [Constant] ([Num]), [Name], [BinOp]
    and [UnaryOp] -- a call, a comparison, a boolean operation, a
    subscript, an attribute access, ... -- is rejected with the
    [ValueError] of unsupported syntax, whatever its sub-expressions are:
    they are not evaluated, and [variables] is left as it was. *)
Theorem unsupported_syntax_rejected (node : ast.expr) (d : gmap string value) :
  whitelisted node = false ->
  _eval node d = (Raise UnsupportedSyntax, d).
Proof.
  intros Hnode. destruct node; simpl in Hnode; try discriminate; reflexivity.
Qed.

(** C2.  When the operands of a division have been evaluated and the right
    one is equal to zero, [_eval] raises the [ValueError] of division by
    zero.  The host is arbitrary: whatever its division operator would
    answer on these operands (an infinity, a NaN, [ZeroDivisionError]) is
    not observed. *)
Theorem division_by_zero_checked_first
    (l r : ast.expr) (d : gmap string value) (lv rv : value) :
  result (_eval l) d = Ok lv ->
  result (_eval r) d = Ok rv ->
  eq_zero rv = true ->
  _eval (ast.BinOp l ast.Div r) d = (Raise DivisionByZero, d).
Proof.
  intros Hl Hr Hz. rewrite _eval_BinOp, Hl, Hr.
  unfold apply_binop. rewrite Hz. reflexivity.
Qed.

(** C3 (what the code does).  A unary operator that is not a key of
    [allowed_operators] ([~], [not]) makes the dictionary access of the
    [UnaryOp] branch raise [KeyError], which is not a [ValueError]. *)
Theorem unary_operator_outside_whitelist
    (op : ast.unaryop) (operand : ast.expr) (d : gmap string value) (v : value) :
  allowed (unaryop_class op) = false ->
  result (_eval operand) d = Ok v ->
  _eval (ast.UnaryOp op operand) d = (Raise (KeyError (str_class (unaryop_class op))), d)
  /\ classified (KeyError (str_class (unaryop_class op))) = false.
Proof.
  intros Hop Hv. split; [|reflexivity].
  rewrite _eval_UnaryOp, Hv. unfold allowed_operators_getitem.
  rewrite allowed_operators_lookup.
  destruct op; simpl in Hop; try discriminate; reflexivity.
Qed.

(** C4 (what the code does).  A literal is returned as the parser built it:
    an integral literal evaluates to the [int], which is not a [float]. *)
Theorem integral_literal_stays_int (z : Z) (d : gmap string value) :
  _eval (ast.Constant (VInt z)) d = (Ok (VInt z), d)
  /\ _eval (ast.Num (VInt z)) d = (Ok (VInt z), d)
  /\ is_float (VInt z) = false.
Proof. repeat split. Qed.

(** C5 (what the code does).  When the source text is a literal that is not
    a number, [safe_evaluate] returns that object: neither a [float] nor an
    exception. *)
Theorem constant_returned_unchecked
    (expr : string) (variables : option (gmap string value)) (v : value) :
  ast_parse expr = Ok (ast.Constant v) ->
  fst (safe_evaluate expr variables) = Ok v.
Proof.
  intros Hparse. unfold safe_evaluate, except_SyntaxError, bind, call.
  rewrite Hparse. reflexivity.
Qed.


(** C7.  In a [BinOp] the left operand is evaluated first: when it raises,
    that exception is the one [_eval] raises, whatever the operator and the
    right operand are; the right operand is not evaluated. *)
Theorem left_failure_short_circuits
    (l r : ast.expr) (op : ast.operator) (d : gmap string value) (e : exception) :
  result (_eval l) d = Raise e ->
  _eval (ast.BinOp l op r) d = (Raise e, d).
Proof.
  intros Hl. rewrite _eval_BinOp, Hl. reflexivity.
Qed.


(** X9.  An exception of the parser other than [SyntaxError] passes through
    [safe_evaluate] as it is. *)
Lemma parser_failure_propagates
    (expr : string) (variables : option (gmap string value)) (e : exception) :
  ast_parse expr = Raise e ->
  (forall msg, e <> SyntaxError msg) ->
  fst (safe_evaluate expr variables) = Raise e.
Proof.
  intros Hparse He. unfold safe_evaluate, except_SyntaxError, bind, call.
  rewrite Hparse. destruct e; try reflexivity. destruct (He msg). reflexivity.
Qed.

(** [safe_evaluate] only reads [variables]. *)
Lemma safe_evaluate_final (expr : string) (d : gmap string value) :
  snd (safe_evaluate expr (Some d)) = d.
Proof.
  unfold safe_evaluate, except_SyntaxError, bind, call.
  destruct (ast_parse expr) as [body|e].
  - rewrite _eval_run. destruct (result (_eval body) d) as [v|[]]; reflexivity.
  - destruct e; reflexivity.
Qed.

(** C9.  A call of [safe_evaluate] leaves the caller's dictionary with the
    contents it had, and a second call with the same text on the dictionary
    the first one left returns what the first returned. *)
Theorem safe_evaluate_idempotent (expr : string) (d : gmap string value) :
  snd (safe_evaluate expr (Some d)) = d
  /\ safe_evaluate expr (Some (snd (safe_evaluate expr (Some d))))
     = safe_evaluate expr (Some d).
Proof.
  split; [apply safe_evaluate_final|].
  rewrite safe_evaluate_final. reflexivity.
Qed.

(** C10.  Leaving [variables] out ([None]) is the same as passing an empty
    dictionary. *)
Theorem omitted_bindings_are_empty (expr : string) :
  safe_evaluate expr None = safe_evaluate expr (Some ∅).
Proof. reflexivity. Qed.

End Claims.

(* ===================================================================== *)
(** * Further properties of [_eval] and [safe_evaluate] *)
(* ===================================================================== *)

Section Evaluation.
Context `{Host}.

Lemma _eval_Name (id : string) (d : gmap string value) :
  _eval (ast.Name id) d =
    (match d !! id with
     | Some v =>
         match float v with
         | Ok f => Ok (VFloat f)
         | Raise e => Raise e
         end
     | None => Raise (UnboundVariable id)
     end, d).
Proof.
  simpl. unfold bind, contains, getitem, call, ret, raise.
  destruct (d !! id) as [v|] eqn:Hv; simpl; [|reflexivity].
  rewrite Hv. destruct (float v); reflexivity.
Qed.

Lemma apply_binop_value (op : ast.operator) (lv rv v : value) :
  apply_binop op lv rv = Ok v -> allowed (operator_class op) = true.
Proof.
  unfold apply_binop.
  destruct (bool_decide _ && eq_zero rv); [discriminate|].
  destruct (allowed (operator_class op)); [reflexivity|discriminate].
Qed.

Lemma allowed_operators_getitem_value (c : op_class) (f : callable) :
  allowed_operators_getitem c = Ok f -> allowed c = true.
Proof.
  unfold allowed_operators_getitem. rewrite allowed_operators_lookup.
  destruct c as [[]|[]]; simpl; intros; try discriminate; reflexivity.
Qed.

(** Taking a [BinOp] or a [UnaryOp] that has a value apart. *)
Lemma BinOp_value (l r : ast.expr) (op : ast.operator) (d : gmap string value) (v : value) :
  result (_eval (ast.BinOp l op r)) d = Ok v ->
  exists lv rv, result (_eval l) d = Ok lv /\ result (_eval r) d = Ok rv
                /\ apply_binop op lv rv = Ok v.
Proof.
  unfold result at 1. rewrite _eval_BinOp. simpl.
  destruct (result (_eval l) d) as [lv|]; [|discriminate].
  destruct (result (_eval r) d) as [rv|]; [|discriminate].
  eauto.
Qed.

Lemma UnaryOp_value (op : ast.unaryop) (operand : ast.expr) (d : gmap string value) (v : value) :
  result (_eval (ast.UnaryOp op operand)) d = Ok v ->
  exists w, result (_eval operand) d = Ok w /\ allowed (unaryop_class op) = true.
Proof.
  unfold result at 1. rewrite _eval_UnaryOp. simpl.
  destruct (result (_eval operand) d) as [w|]; [|discriminate].
  destruct (allowed_operators_getitem (unaryop_class op)) as [f|] eqn:Hf; [|discriminate].
  intros _. exists w. split; [reflexivity|].
  exact (allowed_operators_getitem_value _ _ Hf).
Qed.

Lemma supported_of_value (node : ast.expr) (d : gmap string value) (v : value) :
  result (_eval node) d = Ok v -> supported node = true.
Proof.
  revert v. induction node; intros v Hv; try reflexivity; try discriminate.
  - apply BinOp_value in Hv as (lv & rv & Hl & Hr & Hop).
    cbn [supported].
    rewrite (apply_binop_value _ _ _ _ Hop), (IHnode1 _ Hl), (IHnode2 _ Hr).
    reflexivity.
  - apply UnaryOp_value in Hv as (w & Hw & Hop).
    cbn [supported]. rewrite Hop, (IHnode _ Hw). reflexivity.
Qed.

(** X1.  [_eval] gives a value only for a tree made of literals, names and
    the operators of [allowed_operators], all the way down: a node of
    another class or an operator outside the dictionary, at any depth the
    evaluation reaches, ends it with an exception. *)
Theorem value_only_for_supported_tree
    (node : ast.expr) (d : gmap string value) (v : value) :
  result (_eval node) d = Ok v -> supported node = true.
Proof. apply supported_of_value. Qed.

(** X2.  When [_eval] gives a value, every name of the tree is a key of
    [variables]. *)
Theorem value_needs_every_name_bound
    (node : ast.expr) (d : gmap string value) (v : value) :
  result (_eval node) d = Ok v ->
  forall id, id ∈ names node -> is_Some (d !! id).
Proof.
  revert v. induction node; intros v Hv x Hx; simpl in Hx;
    try (exfalso; exact (not_elem_of_empty x Hx)).
  - apply elem_of_singleton in Hx as ->.
    unfold result in Hv. rewrite _eval_Name in Hv. simpl in Hv.
    destruct (d !! id); [eauto|discriminate].
  - apply BinOp_value in Hv as (lv & rv & Hl & Hr & _).
    apply elem_of_union in Hx as [Hx|Hx]; eauto.
  - apply UnaryOp_value in Hv as (w & Hw & _). eauto.
Qed.

(** X3.  The outcome of [_eval] depends on [variables] only through the
    bindings of the names of the tree: two dictionaries that agree on them
    give the same outcome. *)
Theorem outcome_depends_on_named_bindings
    (node : ast.expr) (d d' : gmap string value) :
  (forall id, id ∈ names node -> d !! id = d' !! id) ->
  result (_eval node) d = result (_eval node) d'.
Proof.
  induction node; intros Hagree; try reflexivity.
  - unfold result. rewrite !_eval_Name. simpl.
    rewrite (Hagree id) by set_solver. reflexivity.
  - unfold result at 1 2. rewrite !_eval_BinOp. simpl.
    rewrite IHnode1, IHnode2; [reflexivity | |];
      intros x Hx; apply Hagree; simpl; set_solver.
  - unfold result at 1 2. rewrite !_eval_UnaryOp. simpl.
    rewrite IHnode; [reflexivity|].
    intros x Hx. apply Hagree. simpl. exact Hx.
Qed.

(** X4.  Bindings added to [variables] do not change a value: what an
    expression evaluates to under a dictionary, it evaluates to under every
    dictionary that extends it. *)
Theorem extra_bindings_keep_value
    (node : ast.expr) (d d' : gmap string value) (v : value) :
  d ⊆ d' ->
  result (_eval node) d = Ok v ->
  result (_eval node) d' = Ok v.
Proof.
  intros Hsub. revert v.
  induction node; intros v Hv; try exact Hv.
  - unfold result in *. rewrite _eval_Name in *. simpl in *.
    destruct (d !! id) as [x|] eqn:Hx; [|discriminate].
    rewrite (lookup_weaken _ _ _ _ Hx Hsub). exact Hv.
  - apply BinOp_value in Hv as (lv & rv & Hl & Hr & Hop).
    unfold result. rewrite _eval_BinOp. simpl.
    rewrite (IHnode1 _ Hl), (IHnode2 _ Hr). exact Hop.
  - unfold result in Hv |- *. rewrite _eval_UnaryOp in Hv |- *. simpl in *.
    destruct (result (_eval node) d) as [w|] eqn:Hw; [|discriminate].
    rewrite (IHnode _ eq_refl). exact Hv.
Qed.

(** X5.  In a [UnaryOp] the operand is evaluated before the operator is
    looked up: when the operand raises, that exception is the one [_eval]
    raises, also for an operator that is not a key of [allowed_operators]. *)
Theorem operand_failure_first
    (op : ast.unaryop) (operand : ast.expr) (d : gmap string value) (e : exception) :
  result (_eval operand) d = Raise e ->
  _eval (ast.UnaryOp op operand) d = (Raise e, d).
Proof. intros Hv. rewrite _eval_UnaryOp, Hv. reflexivity. Qed.

(** X6.  The operator of an allowed [BinOp] is the one of its class: with
    both operands evaluated, and the right one not zero for a division, the
    outcome is that of [operator.add], [operator.sub], [operator.mul] or
    [operator.truediv] on the two values, left one first. *)
Theorem binary_operator_dispatch
    (l r : ast.expr) (op : ast.operator) (d : gmap string value) (lv rv : value) :
  result (_eval l) d = Ok lv ->
  result (_eval r) d = Ok rv ->
  allowed (operator_class op) = true ->
  (op = ast.Div -> eq_zero rv = false) ->
  _eval (ast.BinOp l op r) d =
    (match op with
     | ast.Add => operator_add lv rv
     | ast.Sub => operator_sub lv rv
     | ast.Mult => operator_mul lv rv
     | _ => operator_truediv lv rv
     end, d).
Proof.
  intros Hl Hr Hop Hz. rewrite _eval_BinOp, Hl, Hr.
  unfold apply_binop, allowed_operators_getitem.
  rewrite allowed_operators_lookup.
  destruct op; simpl in Hop; try discriminate; simpl; try reflexivity.
  rewrite (Hz eq_refl). reflexivity.
Qed.

(** X7.  An allowed [UnaryOp] is [operator.neg] for [-] and [operator.pos]
    for [+], on the value of the operand. *)
Theorem unary_operator_dispatch
    (op : ast.unaryop) (operand : ast.expr) (d : gmap string value) (v : value) :
  result (_eval operand) d = Ok v ->
  allowed (unaryop_class op) = true ->
  _eval (ast.UnaryOp op operand) d =
    (match op with
     | ast.USub => operator_neg v
     | _ => operator_pos v
     end, d).
Proof.
  intros Hv Hop. rewrite _eval_UnaryOp, Hv.
  unfold allowed_operators_getitem. rewrite allowed_operators_lookup.
  destruct op; simpl in Hop; try discriminate; reflexivity.
Qed.

(** X8.  [SyntaxError] never comes out of [safe_evaluate]. *)
Theorem syntax_error_never_escapes
    (expr : string) (variables : option (gmap string value)) (msg : string) :
  fst (safe_evaluate expr variables) <> Raise (SyntaxError msg).
Proof.
  unfold safe_evaluate, except_SyntaxError, bind, call.
  destruct (ast_parse expr) as [body|e].
  - destruct (_eval body _) as [[v|e] d']; [discriminate|].
    destruct e; discriminate.
  - destruct e; discriminate.
Qed.

End Evaluation.

(* ===================================================================== *)
(** * Properties of the endpoints *)
(* ===================================================================== *)

(** X13.  [div] answers a divisor equal to zero, of either sign, with the
    [HTTPException] of status 400, and any other divisor with the quotient;
    the [ZeroDivisionError] of the division never escapes it. *)
Theorem div_guarded (data : BasicMath.t) (st : app_state) :
  div data st =
    (if float_is_zero (BasicMath.b data) then Fail (HTTPException 400 msg_div_endpoint)
     else Return [("result",
                   FValue (VFloat (operator.fdiv (BasicMath.a data) (BasicMath.b data))))],
     st)
  /\ forall e, fst (div data st) <> Fail (Uncaught e).
Proof.
  unfold div, float_div, operator.float_truediv.
  destruct (float_is_zero (BasicMath.b data)); split; try reflexivity;
    intros e; discriminate.
Qed.

Section Serving.
Context `{Host}.

Lemma safe_evaluate_final_default (expr : string) (variables : option (gmap string value)) :
  snd (safe_evaluate expr variables) = default ∅ variables.
Proof.
  unfold safe_evaluate, except_SyntaxError, bind, call.
  destruct (ast_parse expr) as [body|e].
  - rewrite _eval_run. destruct (result (_eval body) _) as [v|[]]; reflexivity.
  - destruct e; reflexivity.
Qed.

Lemma safe_evaluate_value
    (expr : string) (variables : option (gmap string value)) (v : value) :
  fst (safe_evaluate expr variables) = Ok v ->
  exists body, ast_parse expr = Ok body
               /\ result (_eval body) (default ∅ variables) = Ok v.
Proof.
  unfold safe_evaluate, except_SyntaxError, bind, call, result.
  destruct (ast_parse expr) as [body|e].
  - intros Hv. exists body. split; [reflexivity|].
    destruct variables as [d|]; simpl in *;
      destruct (_eval body _) as [[w|[]] d']; simpl in *; congruence.
  - destruct e; discriminate.
Qed.

Lemma safe_evaluate_parsed
    (expr : string) (variables : option (gmap string value)) (body : ast.expr) :
  ast_parse expr = Ok body ->
  (forall msg, result (_eval body) (default ∅ variables) <> Raise (SyntaxError msg)) ->
  fst (safe_evaluate expr variables) = result (_eval body) (default ∅ variables).
Proof.
  intros Hparse Hno. unfold safe_evaluate, except_SyntaxError, bind, call, result in *.
  rewrite Hparse.
  destruct variables as [d|]; simpl in *;
    destruct (_eval body _) as [[w|[]] d']; simpl in *; try reflexivity;
    destruct (Hno msg); reflexivity.
Qed.

Lemma execute_expression_state (data : ExecuteRequest.t) (st : app_state) :
  snd (execute_expression data st) = st.
Proof.
  unfold execute_expression.
  destruct (String.eqb _ _); [reflexivity|].
  destruct (safe_evaluate _ _) as [[v|[]] d']; reflexivity.
Qed.

(** Only [POST /expression] writes the slot. *)
Lemma route_state (req : request) (st : app_state) :
  current_expression (snd (route req st)) = last_expression [req] (current_expression st).
Proof.
  destruct req; simpl; try reflexivity.
  - unfold div. destruct (float_is_zero _); [reflexivity|].
    destruct (float_div _ _); reflexivity.
  - rewrite execute_expression_state. reflexivity.
Qed.

Lemma serve_state (reqs : list request) (st : app_state) :
  current_expression (snd (serve reqs st)) = last_expression reqs (current_expression st).
Proof.
  revert st. induction reqs as [|req rest IH]; intros st; [reflexivity|].
  simpl. pose proof (route_state req st) as Hreq.
  destruct (route req st) as [r st']. specialize (IH st').
  destruct (serve rest st') as [rs st'']. simpl in *.
  rewrite IH, Hreq. destruct req; reflexivity.
Qed.

Lemma serve_app (reqs reqs' : list request) (st : app_state) :
  serve (reqs ++ reqs')%list st =
    ((fst (serve reqs st) ++ fst (serve reqs' (snd (serve reqs st))))%list,
     snd (serve reqs' (snd (serve reqs st)))).
Proof.
  revert st. induction reqs as [|req rest IH]; intros st.
  - simpl. destruct (serve reqs' st); reflexivity.
  - simpl. destruct (route req st) as [r st']. rewrite IH.
    destruct (serve rest st') as [rs st'']. reflexivity.
Qed.

(** X14.  [GET /expression] answers the expression of the last
    [POST /expression] served before it, whatever requests came between
    (the four operations and [POST /execute] leave it in place), or the
    expression the application started with. *)
Theorem get_expression_after (reqs : list request) (st : app_state) :
  fst (serve (reqs ++ [GET_expression])%list st) =
    (fst (serve reqs st)
     ++ [Return [("current_expression",
                  FStr (last_expression reqs (current_expression st)))]])%list.
Proof.
  rewrite serve_app. simpl. rewrite serve_state. reflexivity.
Qed.

(** X15.  [POST /execute] with no expression in the slot -- none posted
    yet, or the empty one posted last -- is answered with the
    [HTTPException] of status 400 that asks for one; nothing is parsed or
    evaluated. *)
Theorem execute_without_expression
    (reqs : list request) (data : ExecuteRequest.t) (st : app_state) :
  last_expression reqs (current_expression st) = "" ->
  fst (serve (reqs ++ [POST_execute data])%list st) =
    (fst (serve reqs st) ++ [Fail (HTTPException 400 msg_not_set)])%list.
Proof.
  intros Hlast. rewrite serve_app. simpl.
  pose proof (serve_state reqs st) as Hst. rewrite Hlast in Hst.
  unfold execute_expression. rewrite Hst. reflexivity.
Qed.

(** X16.  Whatever [safe_evaluate] does, what [execute_expression] raises
    is an [HTTPException], of status 400 or 500: no other exception escapes
    the endpoint. *)
Theorem execute_expression_raises_HTTPException
    (data : ExecuteRequest.t) (st : app_state) (x : raised) :
  fst (execute_expression data st) = Fail x ->
  exists detail, x = HTTPException 400 detail \/ x = HTTPException 500 detail.
Proof.
  unfold execute_expression.
  destruct (String.eqb _ _); simpl.
  - intros [= <-]. eauto.
  - destruct (safe_evaluate _ _) as [[v|[]] d']; simpl; intros [= <-]; eauto.
Qed.

(** X17.  A response of [execute_expression] is only made for a stored
    expression that parses to a tree of literals, names and allowed
    operators; it carries the expression, the client's bindings as they
    were sent ([{}] for none) and the value of the tree under them. *)
Theorem execute_expression_response
    (data : ExecuteRequest.t) (st : app_state) (r : response) :
  fst (execute_expression data st) = Return r ->
  let d := default ∅ (objects (ExecuteRequest.variables data)) in
  exists body v,
    current_expression st <> ""
    /\ ast_parse (current_expression st) = Ok body
    /\ supported body = true
    /\ result (_eval body) d = Ok v
    /\ r = [("expression", FStr (current_expression st));
            ("variables_used", FDict d);
            ("result", FValue v)].
Proof.
  unfold execute_expression.
  destruct (String.eqb _ _) eqn:Hempty; [discriminate|].
  apply String.eqb_neq in Hempty.
  pose proof (safe_evaluate_final_default (current_expression st)
                (objects (ExecuteRequest.variables data))) as Hfinal.
  pose proof (safe_evaluate_value (current_expression st)
                (objects (ExecuteRequest.variables data))) as Hvalue.
  destruct (safe_evaluate _ _) as [[v|[]] d']; simpl in *; try discriminate.
  intros [= <-]. destruct (Hvalue v eq_refl) as (body & Hparse & Hv).
  exists body, v. repeat split; try assumption.
  - eapply supported_of_value; eassumption.
  - subst d'. destruct (ExecuteRequest.variables data); reflexivity.
Qed.

(** X18.  A stored expression whose root is a node [_eval] has no branch
    for (a call, a comparison, ...) is answered with status 400 and the
    text of unsupported syntax, whatever its sub-expressions are. *)
Theorem execute_expression_unsupported_syntax
    (data : ExecuteRequest.t) (st : app_state) (body : ast.expr) :
  current_expression st <> "" ->
  ast_parse (current_expression st) = Ok body ->
  whitelisted body = false ->
  execute_expression data st = (Fail (HTTPException 400 msg_unsupported_syntax), st).
Proof.
  intros Hempty Hparse Hbody. unfold execute_expression.
  apply String.eqb_neq in Hempty. rewrite Hempty.
  unfold safe_evaluate, except_SyntaxError, bind, call. rewrite Hparse.
  destruct body; simpl in Hbody; try discriminate; reflexivity.
Qed.

(** X19.  A stored expression that applies a unary operator outside
    [allowed_operators] ([~], [not]) to an operand that has a value is
    answered with status 500, as an internal error that shows the
    operator's class: the [KeyError] of the [UnaryOp] branch is not a
    [ValueError]. *)
Theorem execute_expression_unary_internal_error
    (data : ExecuteRequest.t) (st : app_state)
    (op : ast.unaryop) (operand : ast.expr) (v : value) :
  current_expression st <> "" ->
  ast_parse (current_expression st) = Ok (ast.UnaryOp op operand) ->
  allowed (unaryop_class op) = false ->
  result (_eval operand) (default ∅ (objects (ExecuteRequest.variables data))) = Ok v ->
  execute_expression data st =
    (Fail (HTTPException 500 (msg_internal +:+ str_class (unaryop_class op))), st).
Proof.
  intros Hempty Hparse Hop Hv. unfold execute_expression.
  apply String.eqb_neq in Hempty. rewrite Hempty.
  pose proof (safe_evaluate_parsed (current_expression st)
                (objects (ExecuteRequest.variables data)) _ Hparse) as Heval.
  assert (Hres : result (_eval (ast.UnaryOp op operand))
                   (default ∅ (objects (ExecuteRequest.variables data)))
                 = Raise (KeyError (str_class (unaryop_class op)))).
  { unfold result at 1. rewrite _eval_UnaryOp, Hv. simpl.
    unfold allowed_operators_getitem. rewrite allowed_operators_lookup.
    destruct op; simpl in Hop; try discriminate; reflexivity. }
  rewrite Hres in Heval. specialize (Heval ltac:(intros; discriminate)).
  destruct (safe_evaluate _ _) as [o d']. simpl in Heval. subst o. reflexivity.
Qed.

(** X20.  [POST /execute] without bindings and with the empty dictionary
    of bindings are answered alike. *)
Theorem execute_expression_no_bindings (st : app_state) :
  execute_expression {| ExecuteRequest.variables := None |} st
  = execute_expression {| ExecuteRequest.variables := Some ∅ |} st.
Proof.
  unfold execute_expression. simpl. rewrite fmap_empty.
  destruct (String.eqb _ _); [reflexivity|].
  change (safe_evaluate (current_expression st) None)
    with (safe_evaluate (current_expression st) (Some ∅)).
  pose proof (safe_evaluate_final_default (current_expression st) (Some ∅)) as Hfinal.
  destruct (safe_evaluate _ _) as [[v|e] d']; simpl in *; subst; reflexivity.
Qed.

End Serving.

(* ===================================================================== *)
(** * Examples *)
(* ===================================================================== *)

(** The examples of the specification. *)
Example run_2 : run "2" [] = Ok (VInt 2).
Proof. vm_compute. reflexivity. Qed.

Example run_a_plus_b : run "a+b" [("a", VInt 2); ("b", VInt 3)] = Ok (VFloat (float_literal 5 0)).
Proof. vm_compute. reflexivity. Qed.

Example run_a_div_b : run "a/b" [("a", VInt 1); ("b", VInt 0)] = Raise DivisionByZero.
Proof. vm_compute. reflexivity. Qed.

Example run_x : run "x" [] = Raise (UnboundVariable "x").
Proof. vm_compute. reflexivity. Qed.

Example run_neg_neg : run "-(-5)" [] = Ok (VInt 5).
Proof. vm_compute. reflexivity. Qed.

Example run_mul_add : run "2*(3+4)" [] = Ok (VInt 14).
Proof. vm_compute. reflexivity. Qed.

Example run_7_2 : run "7/2" [] = Ok (VFloat (float_literal 35 1)).
Proof. vm_compute. reflexivity. Qed.

Example run_unfinished : run "2+" [] = Raise SyntaxFailure.
Proof. vm_compute. reflexivity. Qed.

Example run_import : run "__import__('os')" [] = Raise UnsupportedSyntax.
Proof. vm_compute. reflexivity. Qed.

(** [__import__('os')]: the call is rejected; [f(~1)]: so is a call whose
    argument alone would raise [KeyError]. *)
Lemma unsupported_syntax_rejected_witness :
  whitelisted (ast.Call (ast.Name "__import__") [ast.Constant (VStr "os")] []) = false
  /\ @_eval cpython (ast.Call (ast.Name "__import__") [ast.Constant (VStr "os")] []) ∅
     = (Raise UnsupportedSyntax, ∅).
Proof.
  split; [reflexivity|].
  apply (@unsupported_syntax_rejected cpython). reflexivity.
Defined.

Example call_argument_not_evaluated :
  run "~1" [] = Raise (KeyError "<class 'ast.Invert'>")
  /\ run "f(~1)" [] = Raise UnsupportedSyntax.
Proof. split; vm_compute; reflexivity. Qed.

(** [a/b] with [a = 1.5] and [b = -0.0]. *)
Lemma division_by_zero_checked_first_witness :
  let d : gmap string value :=
    <["a" := VFloat (float_literal 15 1)]> (<["b" := VFloat (S754_zero true)]> ∅) in
  result (@_eval cpython (ast.Name "a")) d = Ok (VFloat (float_literal 15 1))
  /\ result (@_eval cpython (ast.Name "b")) d = Ok (VFloat (S754_zero true))
  /\ eq_zero (VFloat (S754_zero true)) = true
  /\ @_eval cpython (ast.BinOp (ast.Name "a") ast.Div (ast.Name "b")) d
     = (Raise DivisionByZero, d).
Proof.
  intros d.
  assert (Ha : result (@_eval cpython (ast.Name "a")) d = Ok (VFloat (float_literal 15 1)))
    by (vm_compute; reflexivity).
  assert (Hb : result (@_eval cpython (ast.Name "b")) d = Ok (VFloat (S754_zero true)))
    by (vm_compute; reflexivity).
  split; [exact Ha|]. split; [exact Hb|]. split; [reflexivity|].
  exact (@division_by_zero_checked_first cpython _ _ d _ _ Ha Hb eq_refl).
Defined.

(** [~1]. *)
Lemma unary_operator_outside_whitelist_witness :
  allowed (unaryop_class ast.Invert) = false
  /\ result (@_eval cpython (ast.Constant (VInt 1))) ∅ = Ok (VInt 1)
  /\ @_eval cpython (ast.UnaryOp ast.Invert (ast.Constant (VInt 1))) ∅
     = (Raise (KeyError "<class 'ast.Invert'>"), ∅)
  /\ classified (KeyError "<class 'ast.Invert'>") = false.
Proof.
  split; [reflexivity|]. split; [reflexivity|].
  exact (@unary_operator_outside_whitelist cpython ast.Invert
           (ast.Constant (VInt 1)) ∅ (VInt 1) eq_refl eq_refl).
Defined.

Example run_not : run "not 1" [] = Raise (KeyError "<class 'ast.Not'>").
Proof. vm_compute. reflexivity. Qed.

Example run_pow : run "2**3" [] = Raise (UnsupportedOperator (operator_class ast.Pow)).
Proof. vm_compute. reflexivity. Qed.

(** ['abc']. *)
Lemma constant_returned_unchecked_witness :
  @ast_parse cpython "'abc'" = Ok (ast.Constant (VStr "abc"))
  /\ fst (@safe_evaluate cpython "'abc'" None) = Ok (VStr "abc")
  /\ is_float (VStr "abc") = false.
Proof.
  split; [reflexivity|]. split; [|reflexivity].
  exact (@constant_returned_unchecked cpython "'abc'" None (VStr "abc") eq_refl).
Defined.

Example run_None : run "None" [] = Ok VNone.
Proof. vm_compute. reflexivity. Qed.

Example run_True : run "True" [] = Ok (VBool true).
Proof. vm_compute. reflexivity. Qed.

Example run_str_minus_int :
  run "'a'-1" [] = Raise (TypeError "unsupported operand type(s) for -: 'str' and 'int'").
Proof. vm_compute. reflexivity. Qed.


(** [x/y] with neither bound: the failure names [x]. *)
Lemma left_failure_short_circuits_witness :
  result (@_eval cpython (ast.Name "x")) ∅ = Raise (UnboundVariable "x")
  /\ result (@_eval cpython (ast.Name "y")) ∅ = Raise (UnboundVariable "y")
  /\ @_eval cpython (ast.BinOp (ast.Name "x") ast.Div (ast.Name "y")) ∅
     = (Raise (UnboundVariable "x"), ∅).
Proof.
  split; [reflexivity|]. split; [reflexivity|].
  exact (@left_failure_short_circuits cpython (ast.Name "x") (ast.Name "y")
           ast.Div ∅ (UnboundVariable "x") eq_refl).
Defined.



Example run_empty : run "" [] = Raise SyntaxFailure.
Proof. vm_compute. reflexivity. Qed.

Example run_statement : run "x = 1" [] = Raise SyntaxFailure.
Proof. vm_compute. reflexivity. Qed.

(** [2*(3+4)] has a value, and is made of allowed nodes only. *)
Lemma value_only_for_supported_tree_witness :
  let node := ast.BinOp (ast.Constant (VInt 2)) ast.Mult
                (ast.BinOp (ast.Constant (VInt 3)) ast.Add (ast.Constant (VInt 4))) in
  result (@_eval cpython node) ∅ = Ok (VInt 14) /\ supported node = true.
Proof.
  intros node.
  assert (Hv : result (@_eval cpython node) ∅ = Ok (VInt 14)) by (vm_compute; reflexivity).
  split; [exact Hv|].
  exact (@value_only_for_supported_tree cpython node ∅ (VInt 14) Hv).
Defined.

(** [a+b] under [{"a": 2.0, "b": 3.0}]. *)
Lemma value_needs_every_name_bound_witness :
  let node := ast.BinOp (ast.Name "a") ast.Add (ast.Name "b") in
  let d : gmap string value :=
    <["a" := VFloat (float_literal 2 0)]> (<["b" := VFloat (float_literal 3 0)]> ∅) in
  result (@_eval cpython node) d = Ok (VFloat (float_literal 5 0))
  /\ "b" ∈ names node
  /\ is_Some (d !! "b").
Proof.
  intros node d.
  assert (Hv : result (@_eval cpython node) d = Ok (VFloat (float_literal 5 0)))
    by (vm_compute; reflexivity).
  assert (Hb : "b" ∈ names node)
    by (apply elem_of_union_r, elem_of_singleton; reflexivity).
  split; [exact Hv|]. split; [exact Hb|].
  exact (@value_needs_every_name_bound cpython node d _ Hv "b" Hb).
Defined.

(** [-x] under [{"x": 1.5}] and under [{"x": 1.5, "y": 2}]. *)
Lemma outcome_depends_on_named_bindings_witness :
  let node := ast.UnaryOp ast.USub (ast.Name "x") in
  let d : gmap string value := <["x" := VFloat (float_literal 15 1)]> ∅ in
  let d' : gmap string value := <["y" := VInt 2]> d in
  (forall id, id ∈ names node -> d !! id = d' !! id)
  /\ result (@_eval cpython node) d = result (@_eval cpython node) d'.
Proof.
  intros node d d'.
  assert (Hagree : forall id, id ∈ names node -> d !! id = d' !! id).
  { intros id Hid. unfold node in Hid. simpl in Hid.
    apply elem_of_singleton in Hid. subst id. reflexivity. }
  split; [exact Hagree|].
  exact (@outcome_depends_on_named_bindings cpython node d d' Hagree).
Defined.

Lemma extra_bindings_keep_value_witness :
  let node := ast.UnaryOp ast.USub (ast.Name "x") in
  let d : gmap string value := <["x" := VInt 5]> ∅ in
  let d' : gmap string value := <["y" := VInt 2]> d in
  d ⊆ d'
  /\ result (@_eval cpython node) d = Ok (VFloat (SFopp (float_literal 5 0)))
  /\ result (@_eval cpython node) d' = Ok (VFloat (SFopp (float_literal 5 0))).
Proof.
  intros node d d'.
  assert (Hsub : d ⊆ d') by (apply insert_subseteq; reflexivity).
  assert (Hv : result (@_eval cpython node) d = Ok (VFloat (SFopp (float_literal 5 0))))
    by (vm_compute; reflexivity).
  split; [exact Hsub|]. split; [exact Hv|].
  exact (@extra_bindings_keep_value cpython node d d' _ Hsub Hv).
Defined.

(** [~x] with [x] unbound: the failure is that of [x]. *)
Lemma operand_failure_first_witness :
  result (@_eval cpython (ast.Name "x")) ∅ = Raise (UnboundVariable "x")
  /\ @_eval cpython (ast.UnaryOp ast.Invert (ast.Name "x")) ∅
     = (Raise (UnboundVariable "x"), ∅).
Proof.
  split; [reflexivity|].
  exact (@operand_failure_first cpython ast.Invert (ast.Name "x") ∅ _ eq_refl).
Defined.

(** [7-2]. *)
Lemma binary_operator_dispatch_witness :
  result (@_eval cpython (ast.Constant (VInt 7))) ∅ = Ok (VInt 7)
  /\ result (@_eval cpython (ast.Constant (VInt 2))) ∅ = Ok (VInt 2)
  /\ allowed (operator_class ast.Sub) = true
  /\ (ast.Sub = ast.Div -> eq_zero (VInt 2) = false)
  /\ @_eval cpython (ast.BinOp (ast.Constant (VInt 7)) ast.Sub (ast.Constant (VInt 2))) ∅
     = (operator.sub (VInt 7) (VInt 2), ∅).
Proof.
  assert (Hz : ast.Sub = ast.Div -> eq_zero (VInt 2) = false) by (intros _; reflexivity).
  split; [reflexivity|]. split; [reflexivity|]. split; [reflexivity|]. split; [exact Hz|].
  exact (@binary_operator_dispatch cpython (ast.Constant (VInt 7)) (ast.Constant (VInt 2))
           ast.Sub ∅ (VInt 7) (VInt 2) eq_refl eq_refl eq_refl Hz).
Defined.

(** [-5]. *)
Lemma unary_operator_dispatch_witness :
  result (@_eval cpython (ast.Constant (VInt 5))) ∅ = Ok (VInt 5)
  /\ allowed (unaryop_class ast.USub) = true
  /\ @_eval cpython (ast.UnaryOp ast.USub (ast.Constant (VInt 5))) ∅
     = (operator.neg (VInt 5), ∅).
Proof.
  split; [reflexivity|]. split; [reflexivity|].
  exact (@unary_operator_dispatch cpython ast.USub (ast.Constant (VInt 5)) ∅ (VInt 5)
           eq_refl eq_refl).
Defined.

(** A parser out of memory. *)
Lemma parser_failure_propagates_witness :
  @ast_parse cpython_exhausted "2" = Raise (MemoryError "")
  /\ (forall msg, MemoryError "" <> SyntaxError msg)
  /\ fst (@safe_evaluate cpython_exhausted "2" None) = Raise (MemoryError "").
Proof.
  assert (Hne : forall msg, MemoryError "" <> SyntaxError msg) by (intros msg; discriminate).
  split; [reflexivity|]. split; [exact Hne|].
  exact (@parser_failure_propagates cpython_exhausted "2" None _ eq_refl Hne).
Defined.

(** [1.5/0.0] under CPython and under a host that would answer [inf]. *)
Lemma truediv_zero_divisor_unobserved_witness :
  let node := ast.BinOp (ast.Constant (VFloat (float_literal 15 1))) ast.Div
                (ast.Constant (VFloat (S754_zero false))) in
  agree_off_zero cpython cpython_inf
  /\ @operator_truediv cpython (VInt 1) (VInt 0) <> @operator_truediv cpython_inf (VInt 1) (VInt 0)
  /\ @_eval cpython node ∅ = @_eval cpython_inf node ∅.
Proof.
  intros node.
  assert (Hagree : agree_off_zero cpython cpython_inf).
  { repeat split. intros x y Hz. simpl. rewrite Hz. reflexivity. }
  split; [exact Hagree|]. split; [discriminate|].
  exact (truediv_zero_divisor_unobserved cpython cpython_inf Hagree node ∅).
Defined.

(** [1 % 0]: the operator is refused; the zero is not looked at. *)
Lemma binary_operator_outside_whitelist_witness :
  allowed (operator_class ast.Mod) = false
  /\ @_eval cpython (ast.BinOp (ast.Constant (VInt 1)) ast.Mod (ast.Constant (VInt 0))) ∅
     = (Raise (UnsupportedOperator (operator_class ast.Mod)), ∅).
Proof.
  split; [reflexivity|].
  exact (@binary_operator_outside_whitelist cpython (ast.Constant (VInt 1))
           (ast.Constant (VInt 0)) ast.Mod ∅ (VInt 1) (VInt 0) eq_refl eq_refl eq_refl).
Defined.

(** [2 ** x] with [x] unbound: the failure is that of [x], not of [**]. *)
Lemma right_failure_propagates_witness :
  result (@_eval cpython (ast.Constant (VInt 2))) ∅ = Ok (VInt 2)
  /\ result (@_eval cpython (ast.Name "x")) ∅ = Raise (UnboundVariable "x")
  /\ @_eval cpython (ast.BinOp (ast.Constant (VInt 2)) ast.Pow (ast.Name "x")) ∅
     = (Raise (UnboundVariable "x"), ∅).
Proof.
  split; [reflexivity|]. split; [reflexivity|].
  exact (@right_failure_propagates cpython (ast.Constant (VInt 2)) (ast.Name "x")
           ast.Pow ∅ (VInt 2) _ eq_refl eq_refl).
Defined.

(** [POST /add], then [POST /expression] with the empty string, then
    [POST /execute]. *)
Lemma execute_without_expression_witness :
  let one := float_literal 1 0 in
  let reqs := [POST_add {| BasicMath.a := one; BasicMath.b := one |};
               POST_expression {| ExpressionSet.expression := "" |}] in
  let data := {| ExecuteRequest.variables := None |} in
  last_expression reqs (current_expression initial_state) = ""
  /\ fst (@serve cpython (reqs ++ [POST_execute data])%list initial_state)
     = (fst (@serve cpython reqs initial_state)
        ++ [Fail (HTTPException 400 msg_not_set)])%list.
Proof.
  intros one reqs data. split; [reflexivity|].
  exact (@execute_without_expression cpython reqs data initial_state eq_refl).
Defined.

(** [1/0] stored: status 400. *)
Lemma execute_expression_raises_HTTPException_witness :
  let st := {| current_expression := "1/0" |} in
  let data := {| ExecuteRequest.variables := None |} in
  fst (@execute_expression cpython data st) = Fail (HTTPException 400 msg_division_by_zero)
  /\ exists detail,
       HTTPException 400 msg_division_by_zero = HTTPException 400 detail
       \/ HTTPException 400 msg_division_by_zero = HTTPException 500 detail.
Proof.
  intros st data.
  assert (Hx : fst (@execute_expression cpython data st)
               = Fail (HTTPException 400 msg_division_by_zero)) by (vm_compute; reflexivity).
  split; [exact Hx|].
  exact (@execute_expression_raises_HTTPException cpython data st _ Hx).
Defined.

(** [a+b] stored, executed with [{"a": 2.0, "b": 3.0}]. *)
Lemma execute_expression_response_witness :
  let st := {| current_expression := "a+b" |} in
  let bindings : gmap string spec_float :=
    <["a" := float_literal 2 0]> (<["b" := float_literal 3 0]> ∅) in
  let data := {| ExecuteRequest.variables := Some bindings |} in
  let r := [("expression", FStr "a+b");
            ("variables_used", FDict (VFloat <$> bindings));
            ("result", FValue (VFloat (float_literal 5 0)))] in
  fst (@execute_expression cpython data st) = Return r
  /\ exists body v,
       current_expression st <> ""
       /\ @ast_parse cpython (current_expression st) = Ok body
       /\ supported body = true
       /\ result (@_eval cpython body) (VFloat <$> bindings) = Ok v
       /\ r = [("expression", FStr (current_expression st));
               ("variables_used", FDict (VFloat <$> bindings));
               ("result", FValue v)].
Proof.
  intros st bindings data r.
  assert (Hr : fst (@execute_expression cpython data st) = Return r)
    by (vm_compute; reflexivity).
  split; [exact Hr|].
  exact (@execute_expression_response cpython data st r Hr).
Defined.

(** [__import__('os')] stored. *)
Lemma execute_expression_unsupported_syntax_witness :
  let st := {| current_expression := "__import__('os')" |} in
  let data := {| ExecuteRequest.variables := None |} in
  current_expression st <> ""
  /\ @ast_parse cpython (current_expression st)
     = Ok (ast.Call (ast.Name "__import__") [ast.Constant (VStr "os")] [])
  /\ @execute_expression cpython data st
     = (Fail (HTTPException 400 msg_unsupported_syntax), st).
Proof.
  intros st data.
  assert (Hne : current_expression st <> "") by discriminate.
  split; [exact Hne|]. split; [reflexivity|].
  exact (@execute_expression_unsupported_syntax cpython data st _ Hne eq_refl eq_refl).
Defined.

(** [~1] stored: status 500. *)
Lemma execute_expression_unary_internal_error_witness :
  let st := {| current_expression := "~1" |} in
  let data := {| ExecuteRequest.variables := None |} in
  current_expression st <> ""
  /\ @ast_parse cpython (current_expression st)
     = Ok (ast.UnaryOp ast.Invert (ast.Constant (VInt 1)))
  /\ @execute_expression cpython data st
     = (Fail (HTTPException 500 (msg_internal +:+ "<class 'ast.Invert'>")), st).
Proof.
  intros st data.
  assert (Hne : current_expression st <> "") by discriminate.
  split; [exact Hne|]. split; [reflexivity|].
  exact (@execute_expression_unary_internal_error cpython data st ast.Invert
           (ast.Constant (VInt 1)) (VInt 1) Hne eq_refl eq_refl eq_refl).
Defined.

Example serve_session :
  fst (@serve cpython
         [POST_expression {| ExpressionSet.expression := "2*(3+4)" |};
          POST_execute {| ExecuteRequest.variables := None |};
          GET_expression] initial_state)
  = [Return [("message", FStr msg_saved); ("current_expression", FStr "2*(3+4)")];
     Return [("expression", FStr "2*(3+4)"); ("variables_used", FDict ∅);
             ("result", FValue (VInt 14))];
     Return [("current_expression", FStr "2*(3+4)")]].
Proof. vm_compute. reflexivity. Qed.
